(** * Assignment route module: exception-to-status translation

    A shallow embedding of [src/views/assignment_view.py]: seven FastAPI
    route handlers that delegate to [AssignmentsService] / [AssignmentRepo]
    and translate the exceptions those raise into HTTP statuses.

    Handlers are written in a small state-and-exception monad.  The state
    holds the world the collaborators act on (the database behind the
    session), the injected [Response] object's [status_code], and a trace
    of the log lines written and the collaborators called, in order. *)

From Stdlib Require Import String Ascii List ZArith Bool DecimalString.
Import ListNotations.

Local Open Scope string_scope.
Local Open Scope list_scope.
Local Open Scope Z_scope.

Set Implicit Arguments.

(* ================================================================== *)
(** ** Python exceptions *)

(** The exception classes the module names in an [except] clause, the
    built-in classes its own expressions can raise, and any other class. *)
Inductive exc_class : Type :=
| SQLAlchemyError
| UUIDValidationException
| CourseNotFoundException
| AssignmentNotFoundException
| AssignmentException
| AssignmentGameFieldException
| AssignmentPositionError
| AssignmentElementFieldError
| TypeError
| ValueError
| OtherClass (name : string).

Definition exc_class_eqb (a b : exc_class) : bool :=
  match a, b with
  | SQLAlchemyError, SQLAlchemyError => true
  | UUIDValidationException, UUIDValidationException => true
  | CourseNotFoundException, CourseNotFoundException => true
  | AssignmentNotFoundException, AssignmentNotFoundException => true
  | AssignmentException, AssignmentException => true
  | AssignmentGameFieldException, AssignmentGameFieldException => true
  | AssignmentPositionError, AssignmentPositionError => true
  | AssignmentElementFieldError, AssignmentElementFieldError => true
  | TypeError, TypeError => true
  | ValueError, ValueError => true
  | OtherClass n, OtherClass m => String.eqb n m
  | _, _ => false
  end.

(** An exception object: the classes it is an instance of (its own class
    and that class's bases) and what [str(e)] gives.  The class
    declarations live in [exceptions/], outside this module, so no
    hierarchy is fixed here: any set of classes can be given. *)
Record exception : Type := {
  exc_classes : list exc_class;
  exc_str : string
}.

(** What a [raise] carries: FastAPI's [HTTPException], which none of the
    module's [except] clauses names, or any other exception object. *)
Inductive raised : Type :=
| HTTPException (status_code : Z) (detail : string)
| PyExc (e : exception).

Definition isinstance (r : raised) (c : exc_class) : bool :=
  match r with
  | HTTPException _ _ => false
  | PyExc e => existsb (exc_class_eqb c) (exc_classes e)
  end.

Definition type_error (msg : string) : raised :=
  PyExc {| exc_classes := [TypeError]; exc_str := msg |}.

Definition value_error (msg : string) : raised :=
  PyExc {| exc_classes := [ValueError]; exc_str := msg |}.

Inductive res (A : Type) : Type :=
| Val (a : A)
| Exc (r : raised).
Arguments Val {A} a.
Arguments Exc {A} r.

(* ================================================================== *)
(** ** [fmt % args] *)

(** Python's [%] on a format string, for the conversions the module
    uses ([%s], and [%%]).  [args] is the tuple on the right, or the
    one-element list for a single [str] operand.  Too few or too many
    operands raise [TypeError], as in CPython.  No other conversion
    occurs in the module; one is reported as a [ValueError]. *)
Fixpoint py_mod (fmt : string) (args : list string) : res string :=
  match fmt with
  | EmptyString =>
      match args with
      | [] => Val EmptyString
      | _ :: _ =>
          Exc (type_error
                 "not all arguments converted during string formatting")
      end
  | String c rest =>
      if Ascii.eqb c "%"%char then
        match rest with
        | EmptyString => Exc (value_error "incomplete format")
        | String d rest' =>
            if Ascii.eqb d "s"%char then
              match args with
              | [] =>
                  Exc (type_error "not enough arguments for format string")
              | a :: args' =>
                  match py_mod rest' args' with
                  | Val s => Val (a ++ s)%string
                  | Exc r => Exc r
                  end
              end
            else if Ascii.eqb d "%"%char then
              match py_mod rest' args with
              | Val s => Val (String "%"%char s)
              | Exc r => Exc r
              end
            else Exc (value_error "unsupported format character")
        end
      else
        match py_mod rest args with
        | Val s => Val (String c s)
        | Exc r => Exc r
        end
  end.

(** [str(n)] for a length, and for a status code. *)
Definition str_of_nat (n : nat) : string :=
  NilEmpty.string_of_uint (Nat.to_uint n).

Definition str_of_Z (z : Z) : string :=
  NilEmpty.string_of_int (Z.to_int z).

(** [str(e)]; starlette renders an [HTTPException] as [status: detail]. *)
Definition py_str (r : raised) : string :=
  match r with
  | PyExc e => exc_str e
  | HTTPException st d => (str_of_Z st ++ ": " ++ d)%string
  end.

(** [sub in s]. *)
Definition contains (s sub : string) : Prop :=
  exists pre post, s = (pre ++ sub ++ post)%string.

(* ================================================================== *)
(** ** Schemas *)

(** [AssignmentGet] / the ORM row: the module reads [assignment_id]. *)
Record Assignment : Type := {
  assignment_id : string;
  assignment_course_id : string
}.

(** [AssignmentCreate]: the module reads [course_id]; the other fields
    only reach the log line, as [name=repr] pairs. *)
Record AssignmentCreate : Type := {
  course_id : string;
  other_fields : list (string * string)
}.

Definition AssignmentCreate_str (a : AssignmentCreate) : string :=
  ("course_id='" ++ course_id a ++ "'"
   ++ String.concat ""
        (map (fun kv => " " ++ fst kv ++ "=" ++ snd kv) (other_fields a)))%string.

(** [GameElementCreate] / [GameElementGet]: an element of an assignment,
    at a square of its play field. *)
Record GameElement : Type := {
  element_assignment_id : string;
  pos_x : Z;
  pos_y : Z;
  element_name : string
}.

(** The starlette [Request]: the handlers only hand it to [only_teacher]. *)
Record Request : Type := {
  access_token : string
}.

(* ================================================================== *)
(** ** Trace and state *)

Inductive callee : Type :=
| OnlyTeacher
| GetCourseAssignments
| CreateAssignment
| DeleteAssignment
| TotalInfoAboutAssignment
| AddElements
| GetAssignmentActions
| AddActions.

Inductive log_level : Type := INFO | ERROR.

Inductive log_arg : Type :=
| LogText (s : string)
| LogExc (r : raised).

Inductive event : Type :=
| Logged (lvl : log_level) (a : log_arg)
| Called (f : callee).

Section Monad.

(** The world behind the database session. *)
Variable W : Type.

Record state : Type := {
  world : W;
  response_status_code : option Z;
  trace : list event
}.

Definition M (A : Type) : Type := state -> state * res A.

Definition ret {A} (a : A) : M A := fun s => (s, Val a).

Definition bind {A B} (m : M A) (k : A -> M B) : M B :=
  fun s =>
    match m s with
    | (s', Val a) => k a s'
    | (s', Exc r) => (s', Exc r)
    end.

Definition raise {A} (r : raised) : M A := fun s => (s, Exc r).

Definition lift {A} (x : res A) : M A := fun s => (s, x).

Definition emit (ev : event) : M unit :=
  fun s =>
    ({| world := world s;
        response_status_code := response_status_code s;
        trace := trace s ++ [ev] |}, Val tt).

(** [response.status_code = n]. *)
Definition set_status_code (n : Z) : M unit :=
  fun s =>
    ({| world := world s;
        response_status_code := Some n;
        trace := trace s |}, Val tt).

(** [await f(...)]: the call is recorded, then [f] runs on the world. *)
Definition call {A} (f : callee) (body : W -> W * res A) : M A :=
  fun s =>
    let (w', x) := body (world s) in
    ({| world := w';
        response_status_code := response_status_code s;
        trace := trace s ++ [Called f] |}, x).

(** [try: body / except C1 ...: h1 / except C2 ...: h2 ...]: the first
    clause whose class the exception is an instance of handles it; an
    exception no clause matches, or one a handler raises, propagates. *)
Definition try_except {A} (body : M A)
           (clauses : list (exc_class * (raised -> M A))) : M A :=
  fun s =>
    match body s with
    | (s', Val a) => (s', Val a)
    | (s', Exc r) =>
        match find (fun cl => isinstance r (fst cl)) clauses with
        | Some cl => snd cl r s'
        | None => (s', Exc r)
        end
    end.

Definition run {A} (m : M A) (w : W) : state * res A :=
  m {| world := w; response_status_code := None; trace := [] |}.

End Monad.

Arguments ret {W A} a.
Arguments bind {W A B} m k.
Arguments raise {W A} r.
Arguments lift {W A} x.
Arguments emit {W} ev.
Arguments set_status_code {W} n.
Arguments call {W A} f body.
Arguments try_except {W A} body clauses.
Arguments run {W A} m w.

Declare Scope handler_scope.
Delimit Scope handler_scope with handler.
Notation "x <- m ;; k" := (bind m (fun x => k))
  (at level 61, m at next level, right associativity) : handler_scope.
Notation "m ;; k" := (bind m (fun _ => k))
  (at level 61, right associativity) : handler_scope.

(* ================================================================== *)
(** ** Collaborators *)

Section Handlers.

(** [W]: the world behind the session.  [R]: what the pass-through
    endpoints hand back unchanged from the service or repository. *)
Variables W R : Type.

(** Everything the module imports and calls.  Each call may change the
    world and either returns or raises.  A service result the handler
    tests with [if x:] is an optional object: [None] is falsy, a row or
    schema object is truthy. *)
Record Collaborators : Type := {
  only_teacher : Request -> W -> W * res unit;
  AssignmentsService_get_course_assignments :
    string -> W -> W * res (list Assignment);
  AssignmentsService_create_assignment :
    AssignmentCreate -> W -> W * res (option Assignment);
  AssignmentsService_delete_assignment :
    string -> W -> W * res (option Assignment);
  AssignmentsService_total_info_about_assignment :
    string -> W -> W * res (option (Assignment * option (list GameElement)));
  AssignmentsService_add_elements :
    list GameElement -> W -> W * res R;
  AssignmentRepo_get_assignment_actions :
    string -> W -> W * res R;
  AssignmentRepo_add_actions :
    list Z -> string -> W -> W * res R;
  (** Whether [ModuleLoger.info] has a parameter named [args], which
      two call sites pass by keyword. *)
  ModuleLoger_info_has_args_parameter : bool
}.

Variable c : Collaborators.

Local Open Scope handler_scope.

(** *** Logger *)

Definition logger_info (msg : string) : M W unit :=
  emit (Logged INFO (LogText msg)).

Definition logger_error (a : log_arg) : M W unit :=
  emit (Logged ERROR a).

(** [logger.info(args=msg)]. *)
Definition logger_info_kw (msg : string) : M W unit :=
  if ModuleLoger_info_has_args_parameter c
  then logger_info msg
  else raise (type_error "info() got an unexpected keyword argument 'args'").

(** *** Fixed response texts *)

Definition uuid_validation_detail : string :=
  "UUID of course validation error. UUID should be 32..36 length and UUID must contains only hex symbols.".

Definition course_not_found_detail (course : string) : string :=
  ("Course with id " ++ course ++ " not found, can't create assignment")%string.

Definition assignment_not_found_detail (uuid : string) : string :=
  ("Assignment with id " ++ uuid ++ " not found")%string.

Definition elements_detail : string :=
  "You cannot add this elements. Some of them go beyond the limits of the playing field or are placed on already occupied squares. Or assignment doesn't exist.".

Definition deleted_detail (id : string) : string :=
  ("Assigment with id " ++ id ++ " successfully deleted")%string.

(** The [{"detail": ...}] dict [delete_assignment] returns. *)
Record DetailBody : Type := { body_detail : string }.

(** *** GET /assignments/ *)

Definition get_assignments (course_uuid : string) : M W (list Assignment) :=
  assignments <-
    try_except
      (msg <- lift (py_mod "Try to get all assignments of course %s"
                           [course_uuid]) ;;
       logger_info msg ;;
       call GetCourseAssignments
            (AssignmentsService_get_course_assignments c course_uuid))
      [ (SQLAlchemyError,
          fun e =>
            logger_error (LogExc e) ;;
            raise (HTTPException 500 "Database error"));
        (UUIDValidationException,
          fun _ =>
            msg <- lift (py_mod "Ask assigment with invalid course uuid: %s"
                                [course_uuid]) ;;
            logger_info msg ;;
            raise (HTTPException 400 uuid_validation_detail)) ] ;;
  match assignments with
  | _ :: _ =>
      msg <- lift (py_mod
                     "Success trying of getting assignments of course %s. Found %s assignments"
                     [course_uuid; str_of_nat (length assignments)]) ;;
      logger_info msg ;;
      set_status_code 201 ;;
      ret assignments
  | [] =>
      msg <- lift (py_mod
                     "Fail of getting assignments for course %s. Assignments doesn't exists"
                     [course_uuid]) ;;
      logger_info msg ;;
      raise (HTTPException 404 "Assignment not found")
  end.

(** *** POST /assignment/ *)

Definition create_assignment (assignment_in : AssignmentCreate)
           (request : Request) : M W (option Assignment) :=
  call OnlyTeacher (only_teacher c request) ;;
  assignment <-
    try_except
      (msg <- lift (py_mod "Try to create assignment with data %s"
                           [AssignmentCreate_str assignment_in]) ;;
       logger_info msg ;;
       call CreateAssignment
            (AssignmentsService_create_assignment c assignment_in))
      [ (UUIDValidationException,
          fun _ =>
            msg <- lift (py_mod
                           "Failed to create assignment with course uuid: %s"
                           [course_id assignment_in]) ;;
            logger_info msg ;;
            raise (HTTPException 400 uuid_validation_detail));
        (CourseNotFoundException,
          fun _ =>
            msg <- lift (py_mod
                           "Failed to create assignment with doesn't existing course uuid: %s"
                           [course_id assignment_in]) ;;
            logger_info msg ;;
            raise (HTTPException 400
                     (course_not_found_detail (course_id assignment_in))));
        (AssignmentGameFieldException,
          fun e => raise (HTTPException 400 (py_str e)));
        (AssignmentPositionError,
          fun e => raise (HTTPException 400 (py_str e)));
        (SQLAlchemyError,
          fun e =>
            logger_error (LogExc e) ;;
            raise (HTTPException 500 "Database error")) ] ;;
  match assignment with
  | Some _ => ret assignment
  | None =>
      msg <- lift (py_mod "Assignment ( %s ) not created"
                          [AssignmentCreate_str assignment_in]) ;;
      logger_error (LogText msg) ;;
      raise (HTTPException 500 "Internal server error")
  end.

(** *** POST /assignment/delete/{assignment_id} *)

Definition delete_assignment (assignment_uuid : string)
           (request : Request) : M W DetailBody :=
  call OnlyTeacher (only_teacher c request) ;;
  assignment <-
    try_except
      (msg <- lift (py_mod "Try to delete assignment with uuid %s"
                           [assignment_uuid]) ;;
       logger_info msg ;;
       call DeleteAssignment
            (AssignmentsService_delete_assignment c assignment_uuid))
      [ (SQLAlchemyError,
          fun e =>
            logger_error (LogExc e) ;;
            raise (HTTPException 500 "Database error"));
        (UUIDValidationException,
          fun _ =>
            msg <- lift (py_mod
                           "Failed to delete assignment with invalid uuid %s"
                           [assignment_uuid]) ;;
            logger_info_kw msg ;;
            raise (HTTPException 400 uuid_validation_detail));
        (AssignmentNotFoundException,
          fun _ =>
            msg <- lift (py_mod
                           "Failed to delete assignment with uuid %s. Assignment not found"
                           [assignment_uuid]) ;;
            logger_info msg ;;
            raise (HTTPException 404
                     (assignment_not_found_detail assignment_uuid)));
        (AssignmentException,
          fun e =>
            logger_error (LogExc e) ;;
            raise (HTTPException 500 "Internal server error")) ] ;;
  match assignment with
  | Some a =>
      set_status_code 201 ;;
      msg <- lift (py_mod "Successfully deleted assignment with uuid %s"
                          [assignment_uuid]) ;;
      logger_info msg ;;
      ret {| body_detail := deleted_detail (assignment_id a) |}
  | None =>
      msg <- lift (py_mod "Failed to delete assignment with uuid"
                          [assignment_uuid]) ;;
      logger_info msg ;;
      raise (HTTPException 500 "Internal server error")
  end.

(** *** GET /full_assignment/{assignment_uuid} *)

Definition get_total_info_assignment (assignment_uuid : string)
  : M W (Assignment * option (list GameElement)) :=
  try_except
    (data <- call TotalInfoAboutAssignment
                  (AssignmentsService_total_info_about_assignment
                     c assignment_uuid) ;;
     match data with
     | Some (assignment, elements) => ret (assignment, elements)
     | None => raise (HTTPException 404 "Assignment not found")
     end)
    [ (SQLAlchemyError,
        fun e =>
          logger_error (LogExc e) ;;
          raise (HTTPException 500 "Database error"));
      (UUIDValidationException,
        fun _ =>
          msg <- lift (py_mod
                         "Failed to delete assignment with invalid uuid %s"
                         [assignment_uuid]) ;;
          logger_info_kw msg ;;
          raise (HTTPException 400 uuid_validation_detail));
      (AssignmentNotFoundException,
        fun _ =>
          msg <- lift (py_mod
                         "Failed to delete assignment with uuid %s. Assignment not found"
                         [assignment_uuid]) ;;
          logger_info msg ;;
          raise (HTTPException 404
                   (assignment_not_found_detail assignment_uuid)));
      (AssignmentException,
        fun e =>
          logger_error (LogExc e) ;;
          raise (HTTPException 500 "Internal server error")) ].

(** *** POST /add_elements/ *)

Definition add_elements (element_list : list GameElement) : M W R :=
  try_except
    (call AddElements (AssignmentsService_add_elements c element_list))
    [ (AssignmentElementFieldError,
        fun _ => raise (HTTPException 400 elements_detail)) ].

(** *** GET /actions/{assignment_uuid}/ *)

Definition get_actions (assignment_uuid : string) : M W R :=
  call GetAssignmentActions
       (AssignmentRepo_get_assignment_actions c assignment_uuid).

(** *** POST /add_actions/ *)

Definition add_actions (actions_id : list Z) (assignment_uuid : string)
  : M W R :=
  call AddActions (AssignmentRepo_add_actions c actions_id assignment_uuid).

End Handlers.

(* ================================================================== *)
(** ** What the framework sends *)

(** FastAPI's part: a returned value is sent with the status set on the
    injected [Response] (200 when the handler set none); an
    [HTTPException] becomes its status and [{"detail": detail}]; any other
    exception is not translated and reaches the default handler. *)
Inductive http_result (B : Type) : Type :=
| Responded (status : Z) (body : B)
| ErrorResponse (status : Z) (detail : string)
| Unhandled (e : exception).
Arguments Responded {B} status body.
Arguments ErrorResponse {B} status detail.
Arguments Unhandled {B} e.

Definition respond {W B} (x : state W * res B) : http_result B :=
  match snd x with
  | Val b =>
      Responded
        (match response_status_code (fst x) with Some n => n | None => 200 end)
        b
  | Exc (HTTPException st d) => ErrorResponse st d
  | Exc (PyExc e) => Unhandled e
  end.

(** The calls made during a run, in order. *)
Definition calls_of {W} (s : state W) : list callee :=
  flat_map (fun ev => match ev with Called f => [f] | Logged _ _ => [] end)
           (trace s).

(** The exception arguments handed to [logger.error] during a run. *)
Definition logged_errors {W} (s : state W) : list raised :=
  flat_map (fun ev => match ev with
                      | Logged ERROR (LogExc r) => [r]
                      | _ => []
                      end)
           (trace s).

(* ================================================================== *)
(** ** Element placement *)

(** Modelled from the spec: [AssignmentsService.add_elements] and the
    store it writes to are not part of this module.  The spec gives a
    game element a position on a bounded play field, asks that positions
    stay within the field's bounds and do not collide with an occupied
    square, and makes a bulk add fail as a whole when any element is out
    of bounds, collides, or names a missing assignment. *)
Record PlayField : Type := {
  field_assignment_id : string;
  field_width : Z;
  field_height : Z
}.

Record Store : Type := {
  play_fields : list PlayField;
  placed : list GameElement
}.

Definition field_of (s : Store) (id : string) : option PlayField :=
  find (fun f => String.eqb (field_assignment_id f) id) (play_fields s).

Definition in_bounds (f : PlayField) (e : GameElement) : bool :=
  (0 <=? pos_x e) && (pos_x e <? field_width f)
  && (0 <=? pos_y e) && (pos_y e <? field_height f).

Definition same_square (a b : GameElement) : bool :=
  String.eqb (element_assignment_id a) (element_assignment_id b)
  && (pos_x a =? pos_x b) && (pos_y a =? pos_y b).

Definition occupied (els : list GameElement) (e : GameElement) : bool :=
  existsb (same_square e) els.

(** The assignment exists, the square is on its field, and it is free. *)
Definition placeable (s : Store) (e : GameElement) : bool :=
  match field_of s (element_assignment_id e) with
  | None => false
  | Some f => in_bounds f e && negb (occupied (placed s) e)
  end.

Definition insert_element (s : Store) (e : GameElement) : Store :=
  {| play_fields := play_fields s; placed := e :: placed s |}.

(** Elements are checked one after the other, each against the squares
    taken so far; the first that cannot be placed fails the batch. *)
Fixpoint place_all (s : Store) (batch : list GameElement) : option Store :=
  match batch with
  | [] => Some s
  | e :: rest =>
      if placeable s e then place_all (insert_element s e) rest else None
  end.

Definition element_field_error : raised :=
  PyExc {| exc_classes := [AssignmentElementFieldError];
           exc_str := "element cannot be placed" |}.

(** Modelled from the spec: the bulk add keeps the store as it was when
    the batch fails, and writes every element when it succeeds.  What a
    successful call returns is left open ([result]). *)
Definition spec_add_elements {R} (result : list GameElement -> R)
           (batch : list GameElement) (s : Store) : Store * res R :=
  match place_all s batch with
  | Some s' => (s', Val (result batch))
  | None => (s, Exc element_field_error)
  end.

(** No two elements of the batch on one square. *)
Fixpoint distinct_squares (batch : list GameElement) : bool :=
  match batch with
  | [] => true
  | e :: rest => negb (occupied rest e) && distinct_squares rest
  end.

Definition all_valid (s : Store) (batch : list GameElement) : bool :=
  forallb (placeable s) batch && distinct_squares batch.

(* ================================================================== *)
(** ** Scripted collaborators *)

(** Collaborators that leave the world alone and answer as scripted. *)
Definition scripted {W R} (perm : res unit)
           (listed : res (list Assignment))
           (created deleted : res (option Assignment))
           (info : res (option (Assignment * option (list GameElement))))
           (passed : res R) (kw : bool) : Collaborators W R :=
  {| only_teacher := fun _ w => (w, perm);
     AssignmentsService_get_course_assignments := fun _ w => (w, listed);
     AssignmentsService_create_assignment := fun _ w => (w, created);
     AssignmentsService_delete_assignment := fun _ w => (w, deleted);
     AssignmentsService_total_info_about_assignment := fun _ w => (w, info);
     AssignmentsService_add_elements := fun _ w => (w, passed);
     AssignmentRepo_get_assignment_actions := fun _ w => (w, passed);
     AssignmentRepo_add_actions := fun _ _ w => (w, passed);
     ModuleLoger_info_has_args_parameter := kw |}.

(** Every call raises [r]; the permission check passes. *)
Definition failing {W R} (r : raised) : Collaborators W R :=
  scripted (Val tt) (Exc r) (Exc r) (Exc r) (Exc r) (Exc r) true.

(** Collaborators over the modelled store. *)
Definition with_store {R} (result : list GameElement -> R) (dflt : R)
  : Collaborators Store R :=
  {| only_teacher := fun _ w => (w, Val tt);
     AssignmentsService_get_course_assignments := fun _ w => (w, Val []);
     AssignmentsService_create_assignment := fun _ w => (w, Val None);
     AssignmentsService_delete_assignment := fun _ w => (w, Val None);
     AssignmentsService_total_info_about_assignment :=
       fun _ w => (w, Val None);
     AssignmentsService_add_elements := spec_add_elements result;
     AssignmentRepo_get_assignment_actions := fun _ w => (w, Val dflt);
     AssignmentRepo_add_actions := fun _ _ w => (w, Val dflt);
     ModuleLoger_info_has_args_parameter := true |}.

Definition exn (classes : list exc_class) (msg : string) : raised :=
  PyExc {| exc_classes := classes; exc_str := msg |}.

Definition sample_assignment : Assignment :=
  {| assignment_id := "0f8fad5bd9cb469fa16570867728950e";
     assignment_course_id := "7c9e6679742540de944be07fc1f90ae7" |}.

Definition sample_create : AssignmentCreate :=
  {| course_id := "7c9e6679742540de944be07fc1f90ae7";
     other_fields := [("name", "'maze'")] |}.

Definition teacher_request : Request := {| access_token := "token" |}.

(** Collaborators that answer every call with the sample assignment. *)
Definition answering : Collaborators unit unit :=
  scripted (Val tt) (Val [sample_assignment]) (Val (Some sample_assignment))
           (Val (Some sample_assignment))
           (Val (Some (sample_assignment, None))) (Val tt) true.

(** A service that deletes nothing and says so with [None]. *)
Definition deleting_nothing : Collaborators unit unit :=
  scripted (Val tt) (Val []) (Val None) (Val None) (Val None) (Val tt) true.

(** A caller the permission check turns away. *)
Definition forbidding : Collaborators unit unit :=
  scripted (Exc (HTTPException 403 "Forbidden"))
           (Val [sample_assignment]) (Val (Some sample_assignment))
           (Val (Some sample_assignment))
           (Val (Some (sample_assignment, None))) (Val tt) true.

Definition game_field_error (msg : string) : raised :=
  exn [AssignmentGameFieldException; AssignmentException] msg.

Definition database_error : raised :=
  exn [SQLAlchemyError] "connection lost".

Definition course_not_found : raised :=
  exn [CourseNotFoundException] "no such course".

Definition assignment_not_found : raised :=
  exn [AssignmentNotFoundException; AssignmentException] "no such assignment".

Definition assignment_error : raised :=
  exn [AssignmentException] "assignment is locked".

Definition board : Store :=
  {| play_fields := [ {| field_assignment_id := "a1";
                         field_width := 3; field_height := 3 |} ];
     placed := [ {| element_assignment_id := "a1"; pos_x := 1; pos_y := 1;
                    element_name := "wall" |} ] |}.

Definition element_at (x y : Z) : GameElement :=
  {| element_assignment_id := "a1"; pos_x := x; pos_y := y;
     element_name := "coin" |}.





(** The texts the handlers answer a caught exception with; two of them
    quote the identifier the request carried. *)
Definition fixed_details (ident : string) : list string :=
  [ "Database error"; uuid_validation_detail;
    course_not_found_detail ident; assignment_not_found_detail ident;
    "Internal server error"; elements_detail ].

(* ================================================================== *)
(** ** Properties *)

Ltac unfold_handlers :=
  unfold respond, run, get_assignments, create_assignment, delete_assignment,
    get_total_info_assignment, add_elements, get_actions, add_actions,
    logger_info_kw, logger_info, logger_error,
    try_except, bind, call, lift, emit, raise, ret, set_status_code.

(** Runs a handler symbolically, feeding it the collaborators' answers
    found among the hypotheses. *)
Ltac step :=
  match goal with
  | H : ?f = (_, _) |- context [?f] => rewrite H
  | H : isinstance ?r ?k = _ |- context [isinstance ?r ?k] => rewrite H
  end; cbn [fst snd find].

Ltac case_clause :=
  match goal with
  | |- context [if isinstance ?r ?k then _ else _] =>
      destruct (isinstance r k) eqn:?
  | |- context [if existsb (exc_class_eqb ?k) ?l then _ else _] =>
      destruct (existsb (exc_class_eqb k) l) eqn:?
  | |- context [if ModuleLoger_info_has_args_parameter ?c then _ else _] =>
      destruct (ModuleLoger_info_has_args_parameter c) eqn:?
  end; simpl.

Ltac execute := unfold_handlers; simpl; repeat (step; simpl).

Lemma contains_infix (pre sub post : string) :
  contains (pre ++ sub ++ post) sub.
Proof. exists pre, post. reflexivity. Qed.

Section Properties.

Variables W R : Type.
Variable c : Collaborators W R.

(** C1, as the code has it.  In every handler, when an exception raised
    by the service is caught and answered with an HTTP error, the body is
    one of the fixed texts (two of them quote the identifier of the
    request), except in [create_assignment]'s clauses for
    [AssignmentGameFieldException] and [AssignmentPositionError], whose
    body is [str(e)].  [get_actions] and [add_actions] catch nothing. *)
Theorem caught_error_bodies (w w' : W) (e : exception) (st : Z) (d : string) :
  (forall course_uuid,
      AssignmentsService_get_course_assignments c course_uuid w
        = (w', Exc (PyExc e)) ->
      respond (run (get_assignments c course_uuid) w) = ErrorResponse st d ->
      In d (fixed_details course_uuid))
  /\ (forall assignment_in request w0,
      only_teacher c request w0 = (w, Val tt) ->
      AssignmentsService_create_assignment c assignment_in w
        = (w', Exc (PyExc e)) ->
      respond (run (create_assignment c assignment_in request) w0)
        = ErrorResponse st d ->
      In d (fixed_details (course_id assignment_in))
      \/ (isinstance (PyExc e) AssignmentGameFieldException
          || isinstance (PyExc e) AssignmentPositionError = true
          /\ d = exc_str e))
  /\ (forall assignment_uuid request w0,
      only_teacher c request w0 = (w, Val tt) ->
      AssignmentsService_delete_assignment c assignment_uuid w
        = (w', Exc (PyExc e)) ->
      respond (run (delete_assignment c assignment_uuid request) w0)
        = ErrorResponse st d ->
      In d (fixed_details assignment_uuid))
  /\ (forall assignment_uuid,
      AssignmentsService_total_info_about_assignment c assignment_uuid w
        = (w', Exc (PyExc e)) ->
      respond (run (get_total_info_assignment c assignment_uuid) w)
        = ErrorResponse st d ->
      In d (fixed_details assignment_uuid))
  /\ (forall element_list,
      AssignmentsService_add_elements c element_list w
        = (w', Exc (PyExc e)) ->
      respond (run (add_elements c element_list) w) = ErrorResponse st d ->
      d = elements_detail)
  /\ (forall assignment_uuid,
      AssignmentRepo_get_assignment_actions c assignment_uuid w
        = (w', Exc (PyExc e)) ->
      respond (run (get_actions c assignment_uuid) w) = Unhandled e)
  /\ (forall actions_id assignment_uuid,
      AssignmentRepo_add_actions c actions_id assignment_uuid w
        = (w', Exc (PyExc e)) ->
      respond (run (add_actions c actions_id assignment_uuid) w)
        = Unhandled e).
Proof.
  repeat split; intros;
    match goal with
    | Hr : respond _ = ErrorResponse _ _ |- _ => revert Hr
    | _ => idtac
    end;
    execute; repeat case_clause; try reflexivity;
    intros Hr; inversion Hr; subst; simpl; tauto.
Qed.

(** C2, as the code has it.  In [get_assignments], [create_assignment],
    [delete_assignment] and [get_total_info_assignment] a
    [SQLAlchemyError] raised by the service is answered with 500 and
    "Database error" (in [create_assignment], where that clause comes
    fifth, when none of the four clauses before it matches).
    [add_elements], [get_actions] and [add_actions] have no clause for it
    and let it through. *)
Theorem database_error_is_500 (w w' : W) (r : raised) :
  isinstance r SQLAlchemyError = true ->
  (forall course_uuid,
      AssignmentsService_get_course_assignments c course_uuid w = (w', Exc r) ->
      respond (run (get_assignments c course_uuid) w)
        = ErrorResponse 500 "Database error")
  /\ (forall assignment_in request w0,
      only_teacher c request w0 = (w, Val tt) ->
      AssignmentsService_create_assignment c assignment_in w = (w', Exc r) ->
      isinstance r UUIDValidationException = false ->
      isinstance r CourseNotFoundException = false ->
      isinstance r AssignmentGameFieldException = false ->
      isinstance r AssignmentPositionError = false ->
      respond (run (create_assignment c assignment_in request) w0)
        = ErrorResponse 500 "Database error")
  /\ (forall assignment_uuid request w0,
      only_teacher c request w0 = (w, Val tt) ->
      AssignmentsService_delete_assignment c assignment_uuid w = (w', Exc r) ->
      respond (run (delete_assignment c assignment_uuid request) w0)
        = ErrorResponse 500 "Database error")
  /\ (forall assignment_uuid,
      AssignmentsService_total_info_about_assignment c assignment_uuid w
        = (w', Exc r) ->
      respond (run (get_total_info_assignment c assignment_uuid) w)
        = ErrorResponse 500 "Database error")
  /\ (forall element_list,
      AssignmentsService_add_elements c element_list w = (w', Exc r) ->
      isinstance r AssignmentElementFieldError = false ->
      snd (run (add_elements c element_list) w) = Exc r)
  /\ (forall assignment_uuid,
      AssignmentRepo_get_assignment_actions c assignment_uuid w
        = (w', Exc r) ->
      snd (run (get_actions c assignment_uuid) w) = Exc r)
  /\ (forall actions_id assignment_uuid,
      AssignmentRepo_add_actions c actions_id assignment_uuid w
        = (w', Exc r) ->
      snd (run (add_actions c actions_id assignment_uuid) w) = Exc r).
Proof.
  intros Hdb. repeat split; intros; execute; reflexivity.
Qed.

(** C3, as the code has it.  [delete_assignment] and
    [get_total_info_assignment] answer an [AssignmentException] that none
    of their earlier clauses matches with 500 "Internal server error",
    after handing it to [logger.error].  The other five handlers have no
    clause for [AssignmentException]: one that none of their clauses
    matches leaves the handler. *)
Theorem generic_assignment_error_is_500 (w w' : W) (r : raised) :
  isinstance r AssignmentException = true ->
  isinstance r SQLAlchemyError = false ->
  isinstance r UUIDValidationException = false ->
  isinstance r AssignmentNotFoundException = false ->
  (forall assignment_uuid request w0,
      only_teacher c request w0 = (w, Val tt) ->
      AssignmentsService_delete_assignment c assignment_uuid w = (w', Exc r) ->
      respond (run (delete_assignment c assignment_uuid request) w0)
        = ErrorResponse 500 "Internal server error"
      /\ In r (logged_errors
                 (fst (run (delete_assignment c assignment_uuid request) w0))))
  /\ (forall assignment_uuid,
      AssignmentsService_total_info_about_assignment c assignment_uuid w
        = (w', Exc r) ->
      respond (run (get_total_info_assignment c assignment_uuid) w)
        = ErrorResponse 500 "Internal server error"
      /\ In r (logged_errors
                 (fst (run (get_total_info_assignment c assignment_uuid) w))))
  /\ (forall course_uuid,
      AssignmentsService_get_course_assignments c course_uuid w = (w', Exc r) ->
      snd (run (get_assignments c course_uuid) w) = Exc r)
  /\ (forall assignment_in request w0,
      only_teacher c request w0 = (w, Val tt) ->
      AssignmentsService_create_assignment c assignment_in w = (w', Exc r) ->
      isinstance r CourseNotFoundException = false ->
      isinstance r AssignmentGameFieldException = false ->
      isinstance r AssignmentPositionError = false ->
      snd (run (create_assignment c assignment_in request) w0) = Exc r)
  /\ (forall element_list,
      AssignmentsService_add_elements c element_list w = (w', Exc r) ->
      isinstance r AssignmentElementFieldError = false ->
      snd (run (add_elements c element_list) w) = Exc r)
  /\ (forall assignment_uuid,
      AssignmentRepo_get_assignment_actions c assignment_uuid w
        = (w', Exc r) ->
      snd (run (get_actions c assignment_uuid) w) = Exc r)
  /\ (forall actions_id assignment_uuid,
      AssignmentRepo_add_actions c actions_id assignment_uuid w
        = (w', Exc r) ->
      snd (run (add_actions c actions_id assignment_uuid) w) = Exc r).
Proof.
  intros Ha Hdb Huuid Hnf.
  repeat match goal with |- _ /\ _ => split end; intros; execute;
    try reflexivity.
  - split; [reflexivity|]. unfold logged_errors. simpl. auto.
  - split; [reflexivity|]. unfold logged_errors. simpl. auto.
Qed.

(** Which collaborators a run of [create_assignment] calls. *)
Lemma create_assignment_calls (assignment_in : AssignmentCreate)
      (request : Request) (w : W) :
  calls_of (fst (run (create_assignment c assignment_in request) w))
  = match snd (only_teacher c request w) with
    | Val _ => [OnlyTeacher; CreateAssignment]
    | Exc _ => [OnlyTeacher]
    end.
Proof.
  unfold_handlers. simpl.
  destruct (only_teacher c request w) as [w1 [u|r]]; simpl; [|reflexivity].
  destruct (AssignmentsService_create_assignment c assignment_in w1)
    as [w2 [[a|]|r]]; simpl; try reflexivity.
  repeat case_clause; reflexivity.
Qed.

(** C8. POST /assignment/: in every run, a call of
    [AssignmentsService.create_assignment] comes after a call of
    [only_teacher] that returned; when [only_teacher] raises, the handler
    ends there with that exception and the service is not called. *)
Theorem create_assignment_checks_teacher_first
        (assignment_in : AssignmentCreate) (request : Request) (w : W) :
  (forall pre post,
      calls_of (fst (run (create_assignment c assignment_in request) w))
        = pre ++ CreateAssignment :: post ->
      In OnlyTeacher pre
      /\ exists w1, only_teacher c request w = (w1, Val tt))
  /\ (forall w1 r,
      only_teacher c request w = (w1, Exc r) ->
      run (create_assignment c assignment_in request) w
        = ({| world := w1; response_status_code := None;
              trace := [Called OnlyTeacher] |}, Exc r)
      /\ ~ In CreateAssignment
            (calls_of (fst (run (create_assignment c assignment_in request) w)))).
Proof.
  split.
  - intros pre post. rewrite create_assignment_calls.
    destruct (only_teacher c request w) as [w1 [[]|r]]; simpl; intros H.
    + destruct pre as [|x [|y pre]]; simpl in H; try discriminate.
      * inversion H; subst. split; [left; reflexivity | eauto].
      * inversion H as [[Hx Hy Hp]]. destruct pre; discriminate.
    + destruct pre as [|x pre]; simpl in H; try discriminate.
      inversion H. destruct pre; discriminate.
  - intros w1 r Hperm. rewrite create_assignment_calls, Hperm. simpl. split.
    + execute. reflexivity.
    + intros [H|[]]. discriminate.
Qed.

(** C4. GET /assignments/: when the service returns one or more
    assignments the response is 201 and its body is the returned list, so
    as long as that list; when it returns none the response is 404 with
    "Assignment not found". *)
Theorem get_assignments_found_or_404
        (course_uuid : string) (w w' : W) (assignments : list Assignment) :
  AssignmentsService_get_course_assignments c course_uuid w
    = (w', Val assignments) ->
  (assignments <> [] ->
   exists body,
     respond (run (get_assignments c course_uuid) w) = Responded 201 body
     /\ body = assignments /\ length body = length assignments)
  /\ (assignments = [] ->
      respond (run (get_assignments c course_uuid) w)
        = ErrorResponse 404 "Assignment not found").
Proof.
  intros Hsvc. split; intros Hl.
  - exists assignments. destruct assignments as [|a l]; [congruence|].
    execute. auto.
  - subst assignments. execute. reflexivity.
Qed.

(** C5. POST /assignment/: when the service raises
    [CourseNotFoundException] the response is 400 and its message contains
    the course UUID of the request body. *)
Theorem create_assignment_course_not_found
        (assignment_in : AssignmentCreate) (request : Request)
        (w w1 w2 : W) (r : raised) :
  only_teacher c request w = (w1, Val tt) ->
  AssignmentsService_create_assignment c assignment_in w1 = (w2, Exc r) ->
  isinstance r CourseNotFoundException = true ->
  isinstance r UUIDValidationException = false ->
  exists d,
    respond (run (create_assignment c assignment_in request) w)
      = ErrorResponse 400 d
    /\ contains d (course_id assignment_in).
Proof.
  intros Hperm Hsvc Hcnf Huuid.
  exists (course_not_found_detail (course_id assignment_in)). split.
  - execute. reflexivity.
  - apply contains_infix.
Qed.

(** C6. POST /assignment/delete/: [AssignmentNotFoundException] gives
    404; a deleted assignment handed back by the service gives 201 with a
    detail string that contains that assignment's id. *)
Theorem delete_assignment_404_or_201
        (assignment_uuid : string) (request : Request) (w w1 : W) :
  only_teacher c request w = (w1, Val tt) ->
  (forall w2 r,
      AssignmentsService_delete_assignment c assignment_uuid w1 = (w2, Exc r) ->
      isinstance r AssignmentNotFoundException = true ->
      isinstance r SQLAlchemyError = false ->
      isinstance r UUIDValidationException = false ->
      respond (run (delete_assignment c assignment_uuid request) w)
        = ErrorResponse 404 (assignment_not_found_detail assignment_uuid))
  /\ (forall w2 a,
      AssignmentsService_delete_assignment c assignment_uuid w1
        = (w2, Val (Some a)) ->
      exists d,
        respond (run (delete_assignment c assignment_uuid request) w)
          = Responded 201 {| body_detail := d |}
        /\ contains d (assignment_id a)).
Proof.
  intros Hperm. split.
  - intros w2 r Hsvc Hnf Hdb Huuid. execute. reflexivity.
  - intros w2 a Hsvc. exists (deleted_detail (assignment_id a)). split.
    + execute. reflexivity.
    + apply contains_infix.
Qed.

(** C9. GET /actions/ and POST /add_actions/: whatever the repository
    raises leaves the handler as it is; nothing is caught, logged or
    translated. *)
Theorem actions_handlers_propagate
        (assignment_uuid : string) (actions_id : list Z)
        (w w' : W) (r : raised) :
  (AssignmentRepo_get_assignment_actions c assignment_uuid w = (w', Exc r) ->
   run (get_actions c assignment_uuid) w
     = ({| world := w'; response_status_code := None;
           trace := [Called GetAssignmentActions] |}, Exc r))
  /\ (AssignmentRepo_add_actions c actions_id assignment_uuid w = (w', Exc r) ->
      run (add_actions c actions_id assignment_uuid) w
        = ({| world := w'; response_status_code := None;
              trace := [Called AddActions] |}, Exc r)).
Proof.
  split; intros Hrepo; execute; reflexivity.
Qed.

(** C10. POST /assignment/delete/: when the service returns a falsy
    value without raising, the handler does not reach its
    [HTTPException(500, "Internal server error")]: the log line before it
    applies [%] to a format string without a conversion, which raises
    [TypeError], and that leaves the handler untranslated. *)
Theorem delete_assignment_falsy_raises_TypeError
        (assignment_uuid : string) (request : Request) (w w1 w2 : W) :
  only_teacher c request w = (w1, Val tt) ->
  AssignmentsService_delete_assignment c assignment_uuid w1 = (w2, Val None) ->
  snd (run (delete_assignment c assignment_uuid request) w)
    = Exc (type_error "not all arguments converted during string formatting")
  /\ respond (run (delete_assignment c assignment_uuid request) w)
     <> ErrorResponse 500 "Internal server error".
Proof.
  intros Hperm Hsvc. execute. split; [reflexivity | discriminate].
Qed.

End Properties.

(** *** Placement *)

Lemma same_square_sym (a b : GameElement) :
  same_square a b = same_square b a.
Proof.
  unfold same_square.
  rewrite String.eqb_sym, (Z.eqb_sym (pos_x a)), (Z.eqb_sym (pos_y a)).
  reflexivity.
Qed.

Lemma placeable_insert_element (s : Store) (e x : GameElement) :
  placeable (insert_element s e) x
  = placeable s x && negb (same_square x e).
Proof.
  unfold placeable, insert_element, field_of. simpl.
  destruct (find _ (play_fields s)) as [f|]; [|reflexivity].
  destruct (in_bounds f x), (same_square x e), (occupied (placed s) x);
    reflexivity.
Qed.

Lemma forallb_placeable_insert (s : Store) (e : GameElement)
      (batch : list GameElement) :
  forallb (placeable (insert_element s e)) batch
  = forallb (placeable s) batch && negb (occupied batch e).
Proof.
  induction batch as [|x rest IH]; simpl; [reflexivity|].
  rewrite IH, placeable_insert_element, (same_square_sym e x).
  destruct (placeable s x), (same_square x e), (forallb (placeable s) rest),
    (occupied rest e); reflexivity.
Qed.

Lemma all_valid_cons (s : Store) (e : GameElement) (rest : list GameElement) :
  all_valid s (e :: rest)
  = placeable s e && all_valid (insert_element s e) rest.
Proof.
  unfold all_valid. simpl. rewrite forallb_placeable_insert.
  destruct (placeable s e), (forallb (placeable s) rest), (occupied rest e),
    (distinct_squares rest); reflexivity.
Qed.

(** The sequential check accepts exactly the valid batches, and then
    writes every element. *)
Lemma place_all_all_valid (batch : list GameElement) (s : Store) :
  place_all s batch
  = if all_valid s batch then Some (fold_left insert_element batch s)
    else None.
Proof.
  revert s. induction batch as [|e rest IH]; intros s; [reflexivity|].
  rewrite all_valid_cons. simpl.
  destruct (placeable s e); simpl; [apply IH | reflexivity].
Qed.

Lemma violation_not_valid (s : Store) (batch : list GameElement) :
  (exists e, In e batch /\ placeable s e = false)
  \/ distinct_squares batch = false ->
  all_valid s batch = false.
Proof.
  unfold all_valid. intros [[e [Hin Hbad]] | Hdup].
  - destruct (forallb (placeable s) batch) eqn:Hall; [|reflexivity].
    rewrite forallb_forall in Hall. rewrite (Hall e Hin) in Hbad.
    discriminate.
  - rewrite Hdup. apply andb_false_r.
Qed.

Lemma placed_fold_left (batch : list GameElement) (s : Store) :
  placed (fold_left insert_element batch s) = rev batch ++ placed s
  /\ play_fields (fold_left insert_element batch s) = play_fields s.
Proof.
  revert s. induction batch as [|e rest IH]; intros s; simpl; [auto|].
  destruct (IH (insert_element s e)) as [Hp Hf]. rewrite Hp, Hf. simpl.
  rewrite <- app_assoc. auto.
Qed.

(** C7. POST /add_elements/, over the modelled service: a batch with an
    element that is off the field, on an occupied square or of a missing
    assignment (or with two elements on one square) is answered with 400
    and the fixed placement text, and the store is left as it was; a
    valid batch is answered with what the service returned, and every
    element is in the store. *)
Theorem add_elements_all_or_nothing
        (R : Type) (c : Collaborators Store R)
        (result : list GameElement -> R)
        (element_list : list GameElement) (s : Store) :
  AssignmentsService_add_elements c = spec_add_elements result ->
  ((exists e, In e element_list /\ placeable s e = false)
   \/ distinct_squares element_list = false ->
   run (add_elements c element_list) s
     = ({| world := s; response_status_code := None;
           trace := [Called AddElements] |},
        Exc (HTTPException 400 elements_detail)))
  /\ (all_valid s element_list = true ->
      respond (run (add_elements c element_list) s)
        = Responded 200 (result element_list)
      /\ placed (world (fst (run (add_elements c element_list) s)))
         = rev element_list ++ placed s).
Proof.
  intros Hsvc. split.
  - intros Hbad. apply violation_not_valid in Hbad.
    unfold_handlers. simpl. rewrite Hsvc. unfold spec_add_elements.
    rewrite place_all_all_valid, Hbad. reflexivity.
  - intros Hok. unfold_handlers. simpl. rewrite Hsvc.
    unfold spec_add_elements. rewrite place_all_all_valid, Hok. simpl.
    split; [reflexivity | apply placed_fold_left].
Qed.

(* ================================================================== *)
(** ** Worked requests *)

(** C1, refuted as stated: in [create_assignment] the body of the 400 is
    the text of the exception the service raised, whatever it is, and not
    one of the fixed texts. *)
Lemma create_assignment_detail_is_exception_text :
  respond (run (create_assignment
                  (failing (game_field_error "field must be 5x5")
                   : Collaborators unit unit)
                  sample_create teacher_request) tt)
  = ErrorResponse 400 "field must be 5x5"
  /\ respond (run (create_assignment
                     (failing (game_field_error "Traceback: line 12")
                      : Collaborators unit unit)
                     sample_create teacher_request) tt)
     = ErrorResponse 400 "Traceback: line 12"
  /\ ~ In "field must be 5x5" (fixed_details (course_id sample_create)).
Proof.
  repeat split.
  simpl. intros H.
  repeat (destruct H as [H|H]; [discriminate H|]). exact H.
Qed.

(** C2, refuted as stated: [add_elements] does not answer a
    [SQLAlchemyError] with 500 "Database error"; the exception leaves the
    handler. *)
Lemma add_elements_database_error_propagates :
  isinstance database_error SQLAlchemyError = true
  /\ AssignmentsService_add_elements
       (failing database_error : Collaborators unit unit) [] tt
     = (tt, Exc database_error)
  /\ respond (run (add_elements
                     (failing database_error : Collaborators unit unit) [])
                  tt)
     = Unhandled {| exc_classes := [SQLAlchemyError];
                    exc_str := "connection lost" |}
  /\ respond (run (add_elements
                     (failing database_error : Collaborators unit unit) [])
                  tt)
     <> ErrorResponse 500 "Database error".
Proof.
  repeat split. discriminate.
Qed.

(** C3, refuted as stated: [get_assignments] has no clause for
    [AssignmentException]; it is neither answered with 500 nor logged,
    and leaves the handler. *)
Lemma get_assignments_assignment_error_propagates :
  isinstance assignment_error AssignmentException = true
  /\ snd (run (get_assignments
                 (failing assignment_error : Collaborators unit unit) "c1")
              tt)
     = Exc assignment_error
  /\ logged_errors
       (fst (run (get_assignments
                    (failing assignment_error : Collaborators unit unit) "c1")
                 tt))
     = []
  /\ forall d,
      respond (run (get_assignments
                      (failing assignment_error : Collaborators unit unit)
                      "c1") tt)
      <> ErrorResponse 500 d.
Proof.
  repeat split. discriminate.
Qed.

(** The rule for caught exceptions, on a lost database connection and
    on a game field the service rejects. *)
Lemma caught_error_bodies_witness :
  In "Database error" (fixed_details "c1")
  /\ (In "field must be 5x5" (fixed_details (course_id sample_create))
      \/ (isinstance (game_field_error "field must be 5x5")
                     AssignmentGameFieldException
          || isinstance (game_field_error "field must be 5x5")
                        AssignmentPositionError = true
          /\ "field must be 5x5"
             = exc_str {| exc_classes := [AssignmentGameFieldException;
                                          AssignmentException];
                          exc_str := "field must be 5x5" |})).
Proof.
  split.
  - apply (proj1
      (@caught_error_bodies unit unit (failing database_error) tt tt
         {| exc_classes := [SQLAlchemyError];
            exc_str := "connection lost" |}
         500 "Database error")
      "c1");
      reflexivity.
  - apply (proj1 (proj2
      (@caught_error_bodies unit unit
         (failing (game_field_error "field must be 5x5")) tt tt
         {| exc_classes := [AssignmentGameFieldException;
                            AssignmentException];
            exc_str := "field must be 5x5" |}
         400 "field must be 5x5"))
      sample_create teacher_request tt);
      reflexivity.
Defined.

Lemma database_error_is_500_witness :
  isinstance database_error SQLAlchemyError = true
  /\ respond (run (get_assignments
                     (failing database_error : Collaborators unit unit) "c1")
                  tt)
     = ErrorResponse 500 "Database error"
  /\ respond (run (create_assignment
                     (failing database_error : Collaborators unit unit)
                     sample_create teacher_request) tt)
     = ErrorResponse 500 "Database error"
  /\ snd (run (add_elements
                 (failing database_error : Collaborators unit unit) []) tt)
     = Exc database_error.
Proof.
  pose proof (@database_error_is_500 unit unit (failing database_error)
                tt tt database_error eq_refl) as H.
  split; [reflexivity|]. split; [|split].
  - apply (proj1 H). reflexivity.
  - apply (proj1 (proj2 H)); reflexivity.
  - apply (proj1 (proj2 (proj2 (proj2 (proj2 H))))); reflexivity.
Defined.

Lemma generic_assignment_error_is_500_witness :
  isinstance assignment_error AssignmentException = true
  /\ respond (run (delete_assignment
                     (failing assignment_error : Collaborators unit unit)
                     "a1" teacher_request) tt)
     = ErrorResponse 500 "Internal server error"
  /\ In assignment_error
        (logged_errors
           (fst (run (delete_assignment
                        (failing assignment_error : Collaborators unit unit)
                        "a1" teacher_request) tt)))
  /\ snd (run (get_assignments
                 (failing assignment_error : Collaborators unit unit) "c1")
              tt)
     = Exc assignment_error.
Proof.
  pose proof (@generic_assignment_error_is_500 unit unit
                (failing assignment_error) tt tt assignment_error
                eq_refl eq_refl eq_refl eq_refl) as H.
  split; [reflexivity|].
  destruct (proj1 H "a1" teacher_request tt eq_refl eq_refl) as [Hst Hlog].
  split; [exact Hst|]. split; [exact Hlog|].
  apply (proj1 (proj2 (proj2 H))). reflexivity.
Defined.

Lemma get_assignments_found_or_404_witness :
  AssignmentsService_get_course_assignments answering "c1" tt
  = (tt, Val [sample_assignment])
  /\ (exists body,
         respond (run (get_assignments answering "c1") tt)
         = Responded 201 body
         /\ body = [sample_assignment] /\ length body = 1%nat)
  /\ respond (run (get_assignments deleting_nothing "c1") tt)
     = ErrorResponse 404 "Assignment not found".
Proof.
  split; [reflexivity|]. split.
  - apply (proj1 (@get_assignments_found_or_404 unit unit answering
                    "c1" tt tt [sample_assignment] eq_refl)).
    discriminate.
  - apply (proj2 (@get_assignments_found_or_404 unit unit deleting_nothing
                    "c1" tt tt [] eq_refl)).
    reflexivity.
Defined.

Lemma create_assignment_course_not_found_witness :
  isinstance course_not_found CourseNotFoundException = true
  /\ isinstance course_not_found UUIDValidationException = false
  /\ exists d,
      respond (run (create_assignment
                      (failing course_not_found : Collaborators unit unit)
                      sample_create teacher_request) tt)
      = ErrorResponse 400 d
      /\ contains d "7c9e6679742540de944be07fc1f90ae7".
Proof.
  split; [reflexivity|]. split; [reflexivity|].
  apply (@create_assignment_course_not_found unit unit
           (failing course_not_found) sample_create teacher_request
           tt tt tt course_not_found);
    reflexivity.
Defined.

Lemma delete_assignment_404_or_201_witness :
  respond (run (delete_assignment
                  (failing assignment_not_found : Collaborators unit unit)
                  "a1" teacher_request) tt)
  = ErrorResponse 404 "Assignment with id a1 not found"
  /\ exists d,
      respond (run (delete_assignment answering "a1" teacher_request) tt)
      = Responded 201 {| body_detail := d |}
      /\ contains d (assignment_id sample_assignment).
Proof.
  split.
  - apply (proj1 (@delete_assignment_404_or_201 unit unit
                    (failing assignment_not_found) "a1" teacher_request
                    tt tt eq_refl)
             tt assignment_not_found);
      reflexivity.
  - apply (proj2 (@delete_assignment_404_or_201 unit unit answering
                    "a1" teacher_request tt tt eq_refl)
             tt sample_assignment).
    reflexivity.
Defined.

Lemma add_elements_all_or_nothing_witness :
  AssignmentsService_add_elements (with_store (fun l => length l) 0%nat)
  = spec_add_elements (fun l => length l)
  /\ placeable board (element_at 5 5) = false
  /\ run (add_elements (with_store (fun l => length l) 0%nat)
                       [element_at 0 0; element_at 5 5]) board
     = ({| world := board; response_status_code := None;
           trace := [Called AddElements] |},
        Exc (HTTPException 400 elements_detail))
  /\ all_valid board [element_at 0 0; element_at 2 2] = true
  /\ respond (run (add_elements (with_store (fun l => length l) 0%nat)
                                [element_at 0 0; element_at 2 2]) board)
     = Responded 200 2%nat
  /\ placed (world (fst (run (add_elements
                                (with_store (fun l => length l) 0%nat)
                                [element_at 0 0; element_at 2 2]) board)))
     = [element_at 2 2; element_at 0 0] ++ placed board.
Proof.
  split; [reflexivity|]. split; [reflexivity|]. split.
  - apply (proj1 (@add_elements_all_or_nothing nat
                    (with_store (fun l => length l) 0%nat)
                    (fun l => length l)
                    [element_at 0 0; element_at 5 5] board eq_refl)).
    left. exists (element_at 5 5). split; [simpl; auto | reflexivity].
  - split; [reflexivity|].
    apply (proj2 (@add_elements_all_or_nothing nat
                    (with_store (fun l => length l) 0%nat)
                    (fun l => length l)
                    [element_at 0 0; element_at 2 2] board eq_refl)).
    reflexivity.
Defined.

Lemma create_assignment_checks_teacher_first_witness :
  only_teacher forbidding teacher_request tt
  = (tt, Exc (HTTPException 403 "Forbidden"))
  /\ run (create_assignment forbidding sample_create teacher_request) tt
     = ({| world := tt; response_status_code := None;
           trace := [Called OnlyTeacher] |},
        Exc (HTTPException 403 "Forbidden"))
  /\ ~ In CreateAssignment
        (calls_of (fst (run (create_assignment forbidding sample_create
                                               teacher_request) tt)))
  /\ (In OnlyTeacher [OnlyTeacher]
      /\ exists w1, only_teacher answering teacher_request tt = (w1, Val tt)).
Proof.
  split; [reflexivity|].
  destruct (proj2 (@create_assignment_checks_teacher_first unit unit
                     forbidding sample_create teacher_request tt)
              tt (HTTPException 403 "Forbidden") eq_refl) as [Hrun Hnot].
  split; [exact Hrun|]. split; [exact Hnot|].
  apply (proj1 (@create_assignment_checks_teacher_first unit unit
                  answering sample_create teacher_request tt)
           [OnlyTeacher] []).
  reflexivity.
Defined.

Lemma actions_handlers_propagate_witness :
  AssignmentRepo_get_assignment_actions
    (failing database_error : Collaborators unit unit) "a1" tt
  = (tt, Exc database_error)
  /\ run (get_actions (failing database_error : Collaborators unit unit)
                      "a1") tt
     = ({| world := tt; response_status_code := None;
           trace := [Called GetAssignmentActions] |}, Exc database_error)
  /\ run (add_actions (failing database_error : Collaborators unit unit)
                      [1; 2] "a1") tt
     = ({| world := tt; response_status_code := None;
           trace := [Called AddActions] |}, Exc database_error).
Proof.
  split; [reflexivity|]. split.
  - apply (proj1 (@actions_handlers_propagate unit unit
                    (failing database_error) "a1" [1; 2] tt tt
                    database_error)).
    reflexivity.
  - apply (proj2 (@actions_handlers_propagate unit unit
                    (failing database_error) "a1" [1; 2] tt tt
                    database_error)).
    reflexivity.
Defined.

Lemma delete_assignment_falsy_raises_TypeError_witness :
  only_teacher deleting_nothing teacher_request tt = (tt, Val tt)
  /\ AssignmentsService_delete_assignment deleting_nothing "a1" tt
     = (tt, Val None)
  /\ snd (run (delete_assignment deleting_nothing "a1" teacher_request) tt)
     = Exc (type_error
              "not all arguments converted during string formatting")
  /\ respond (run (delete_assignment deleting_nothing "a1" teacher_request)
                  tt)
     <> ErrorResponse 500 "Internal server error".
Proof.
  split; [reflexivity|]. split; [reflexivity|].
  apply (@delete_assignment_falsy_raises_TypeError unit unit
           deleting_nothing "a1" teacher_request tt tt tt);
    reflexivity.
Defined.

(* ================================================================== *)
(** ** Further properties of the handlers *)


Section MoreProperties.

Variables W R : Type.
Variable c : Collaborators W R.



(** X3. GET /full_assignment/: the pair the service returns is sent
    with status 200; a falsy result is answered with 404
    "Assignment not found", the [HTTPException] raised inside the [try]
    passing every [except] clause; an [AssignmentNotFoundException] is
    answered with 404 and a text that contains the requested UUID. *)
Theorem get_total_info_assignment_found_or_404
        (assignment_uuid : string) (w w' : W) :
  (forall assignment elements,
      AssignmentsService_total_info_about_assignment c assignment_uuid w
        = (w', Val (Some (assignment, elements))) ->
      respond (run (get_total_info_assignment c assignment_uuid) w)
        = Responded 200 (assignment, elements))
  /\ (AssignmentsService_total_info_about_assignment c assignment_uuid w
        = (w', Val None) ->
      respond (run (get_total_info_assignment c assignment_uuid) w)
        = ErrorResponse 404 "Assignment not found")
  /\ (forall r,
      AssignmentsService_total_info_about_assignment c assignment_uuid w
        = (w', Exc r) ->
      isinstance r AssignmentNotFoundException = true ->
      isinstance r SQLAlchemyError = false ->
      isinstance r UUIDValidationException = false ->
      respond (run (get_total_info_assignment c assignment_uuid) w)
        = ErrorResponse 404 (assignment_not_found_detail assignment_uuid)
      /\ contains (assignment_not_found_detail assignment_uuid)
                  assignment_uuid).
Proof.
  repeat split; intros; execute; try reflexivity.
  exists "Assignment with id ", " not found". reflexivity.
Qed.

(** Which collaborators a run of [delete_assignment] calls. *)
Lemma delete_assignment_calls (assignment_uuid : string)
      (request : Request) (w : W) :
  calls_of (fst (run (delete_assignment c assignment_uuid request) w))
  = match snd (only_teacher c request w) with
    | Val _ => [OnlyTeacher; DeleteAssignment]
    | Exc _ => [OnlyTeacher]
    end.
Proof.
  unfold_handlers. simpl.
  destruct (only_teacher c request w) as [w1 [u|r]]; simpl; [|reflexivity].
  destruct (AssignmentsService_delete_assignment c assignment_uuid w1)
    as [w2 [[a|]|r]]; simpl; try reflexivity.
  repeat case_clause; reflexivity.
Qed.

(** X4. POST /assignment/delete/: as in [create_assignment], the
    service is called only after [only_teacher] returned; when
    [only_teacher] raises, the handler ends there, nothing is logged and
    the service is not called. *)
Theorem delete_assignment_checks_teacher_first
        (assignment_uuid : string) (request : Request) (w : W) :
  (forall pre post,
      calls_of (fst (run (delete_assignment c assignment_uuid request) w))
        = pre ++ DeleteAssignment :: post ->
      In OnlyTeacher pre
      /\ exists w1, only_teacher c request w = (w1, Val tt))
  /\ (forall w1 r,
      only_teacher c request w = (w1, Exc r) ->
      run (delete_assignment c assignment_uuid request) w
        = ({| world := w1; response_status_code := None;
              trace := [Called OnlyTeacher] |}, Exc r)
      /\ ~ In DeleteAssignment
            (calls_of (fst (run (delete_assignment c assignment_uuid request)
                                w)))).
Proof.
  split.
  - intros pre post. rewrite delete_assignment_calls.
    destruct (only_teacher c request w) as [w1 [[]|r]]; simpl; intros H.
    + destruct pre as [|x [|y pre]]; simpl in H; try discriminate.
      * inversion H; subst. split; [left; reflexivity | eauto].
      * inversion H as [[Hx Hy Hp]]. destruct pre; discriminate.
    + destruct pre as [|x pre]; simpl in H; try discriminate.
      inversion H. destruct pre; discriminate.
  - intros w1 r Hperm. rewrite delete_assignment_calls, Hperm. simpl. split.
    + execute. reflexivity.
    + intros [H|[]]. discriminate.
Qed.

(** X5. The five handlers without a permission check make exactly one
    call, to their service or repository, whatever it answers:
    [only_teacher] is never consulted, also not by [add_elements] and
    [add_actions], which write. *)
Theorem ungated_handlers_call_only_their_service (w : W) :
  (forall course_uuid,
      calls_of (fst (run (get_assignments c course_uuid) w))
      = [GetCourseAssignments])
  /\ (forall assignment_uuid,
      calls_of (fst (run (get_total_info_assignment c assignment_uuid) w))
      = [TotalInfoAboutAssignment])
  /\ (forall element_list,
      calls_of (fst (run (add_elements c element_list) w)) = [AddElements])
  /\ (forall assignment_uuid,
      calls_of (fst (run (get_actions c assignment_uuid) w))
      = [GetAssignmentActions])
  /\ (forall actions_id assignment_uuid,
      calls_of (fst (run (add_actions c actions_id assignment_uuid) w))
      = [AddActions]).
Proof.
  repeat split; intros; unfold_handlers; simpl.
  - destruct (AssignmentsService_get_course_assignments c course_uuid w)
      as [w1 [[|a l]|r]]; simpl; try reflexivity.
    repeat case_clause; reflexivity.
  - destruct (AssignmentsService_total_info_about_assignment
                c assignment_uuid w)
      as [w1 [[[a els]|]|r]]; simpl; try reflexivity;
      repeat case_clause; reflexivity.
  - destruct (AssignmentsService_add_elements c element_list w)
      as [w1 [v|r]]; simpl; try reflexivity.
    repeat case_clause; reflexivity.
  - destruct (AssignmentRepo_get_assignment_actions c assignment_uuid w)
      as [w1 [v|r]]; reflexivity.
  - destruct (AssignmentRepo_add_actions c actions_id assignment_uuid w)
      as [w1 [v|r]]; reflexivity.
Qed.

(** X6. [response.status_code] is set, to 201, exactly in the runs of
    [get_assignments] and [delete_assignment] that return; it is left
    unset in every run that raises and in every run of
    [create_assignment], [get_total_info_assignment] and
    [add_elements]. *)
Theorem status_201_exactly_on_success (w : W) :
  (forall course_uuid,
      response_status_code (fst (run (get_assignments c course_uuid) w))
      = match snd (run (get_assignments c course_uuid) w) with
        | Val _ => Some 201
        | Exc _ => None
        end)
  /\ (forall assignment_uuid request,
      response_status_code
        (fst (run (delete_assignment c assignment_uuid request) w))
      = match snd (run (delete_assignment c assignment_uuid request) w) with
        | Val _ => Some 201
        | Exc _ => None
        end)
  /\ (forall assignment_in request,
      response_status_code
        (fst (run (create_assignment c assignment_in request) w)) = None)
  /\ (forall assignment_uuid,
      response_status_code
        (fst (run (get_total_info_assignment c assignment_uuid) w)) = None)
  /\ (forall element_list,
      response_status_code (fst (run (add_elements c element_list) w))
      = None).
Proof.
  repeat split; intros; unfold_handlers; simpl.
  - destruct (AssignmentsService_get_course_assignments c course_uuid w)
      as [w1 [[|a l]|r]]; simpl; try reflexivity.
    repeat case_clause; reflexivity.
  - destruct (only_teacher c request w) as [w1 [u|r]]; simpl; [|reflexivity].
    destruct (AssignmentsService_delete_assignment c assignment_uuid w1)
      as [w2 [[a|]|r]]; simpl; try reflexivity.
    repeat case_clause; reflexivity.
  - destruct (only_teacher c request w) as [w1 [u|r]]; simpl; [|reflexivity].
    destruct (AssignmentsService_create_assignment c assignment_in w1)
      as [w2 [[a|]|r]]; simpl; try reflexivity.
    repeat case_clause; reflexivity.
  - destruct (AssignmentsService_total_info_about_assignment
                c assignment_uuid w)
      as [w1 [[[a els]|]|r]]; simpl; try reflexivity;
      repeat case_clause; reflexivity.
  - destruct (AssignmentsService_add_elements c element_list w)
      as [w1 [v|r]]; simpl; try reflexivity.
    repeat case_clause; reflexivity.
Qed.


(** X8. An [HTTPException] raised by [only_teacher] or by a service is
    not caught by any clause: it reaches the framework with its own
    status and detail. *)
Theorem http_exceptions_pass_through (w w' : W) (st : Z) (d : string) :
  (forall course_uuid,
      AssignmentsService_get_course_assignments c course_uuid w
        = (w', Exc (HTTPException st d)) ->
      respond (run (get_assignments c course_uuid) w) = ErrorResponse st d)
  /\ (forall assignment_in request,
      only_teacher c request w = (w', Exc (HTTPException st d)) ->
      respond (run (create_assignment c assignment_in request) w)
        = ErrorResponse st d)
  /\ (forall assignment_in request w0,
      only_teacher c request w0 = (w, Val tt) ->
      AssignmentsService_create_assignment c assignment_in w
        = (w', Exc (HTTPException st d)) ->
      respond (run (create_assignment c assignment_in request) w0)
        = ErrorResponse st d)
  /\ (forall assignment_uuid request,
      only_teacher c request w = (w', Exc (HTTPException st d)) ->
      respond (run (delete_assignment c assignment_uuid request) w)
        = ErrorResponse st d)
  /\ (forall assignment_uuid request w0,
      only_teacher c request w0 = (w, Val tt) ->
      AssignmentsService_delete_assignment c assignment_uuid w
        = (w', Exc (HTTPException st d)) ->
      respond (run (delete_assignment c assignment_uuid request) w0)
        = ErrorResponse st d)
  /\ (forall assignment_uuid,
      AssignmentsService_total_info_about_assignment c assignment_uuid w
        = (w', Exc (HTTPException st d)) ->
      respond (run (get_total_info_assignment c assignment_uuid) w)
        = ErrorResponse st d)
  /\ (forall element_list,
      AssignmentsService_add_elements c element_list w
        = (w', Exc (HTTPException st d)) ->
      respond (run (add_elements c element_list) w) = ErrorResponse st d).
Proof.
  repeat split; intros; execute; reflexivity.
Qed.

(** X9. In the four handlers with a [SQLAlchemyError] clause, the
    exception answered with "Database error" is handed to
    [logger.error], and it is the only one. *)
Theorem database_errors_are_logged (w w' : W) (r : raised) :
  isinstance r SQLAlchemyError = true ->
  (forall course_uuid,
      AssignmentsService_get_course_assignments c course_uuid w = (w', Exc r) ->
      logged_errors (fst (run (get_assignments c course_uuid) w)) = [r])
  /\ (forall assignment_in request w0,
      only_teacher c request w0 = (w, Val tt) ->
      AssignmentsService_create_assignment c assignment_in w = (w', Exc r) ->
      isinstance r UUIDValidationException = false ->
      isinstance r CourseNotFoundException = false ->
      isinstance r AssignmentGameFieldException = false ->
      isinstance r AssignmentPositionError = false ->
      logged_errors (fst (run (create_assignment c assignment_in request) w0))
      = [r])
  /\ (forall assignment_uuid request w0,
      only_teacher c request w0 = (w, Val tt) ->
      AssignmentsService_delete_assignment c assignment_uuid w = (w', Exc r) ->
      logged_errors
        (fst (run (delete_assignment c assignment_uuid request) w0)) = [r])
  /\ (forall assignment_uuid,
      AssignmentsService_total_info_about_assignment c assignment_uuid w
        = (w', Exc r) ->
      logged_errors
        (fst (run (get_total_info_assignment c assignment_uuid) w)) = [r]).
Proof.
  intros Hdb. repeat split; intros; execute; reflexivity.
Qed.


End MoreProperties.



Lemma get_total_info_assignment_found_or_404_witness :
  respond (run (get_total_info_assignment answering "a1") tt)
  = Responded 200 (sample_assignment, None)
  /\ respond (run (get_total_info_assignment deleting_nothing "a1") tt)
     = ErrorResponse 404 "Assignment not found"
  /\ respond (run (get_total_info_assignment
                     (failing assignment_not_found : Collaborators unit unit)
                     "a1") tt)
     = ErrorResponse 404 "Assignment with id a1 not found".
Proof.
  split; [|split].
  - apply (proj1 (@get_total_info_assignment_found_or_404 unit unit
                    answering "a1" tt tt)).
    reflexivity.
  - apply (proj1 (proj2 (@get_total_info_assignment_found_or_404 unit unit
                           deleting_nothing "a1" tt tt))).
    reflexivity.
  - apply (proj2 (proj2 (@get_total_info_assignment_found_or_404 unit unit
                           (failing assignment_not_found) "a1" tt tt))
             assignment_not_found);
      reflexivity.
Defined.

Lemma delete_assignment_checks_teacher_first_witness :
  only_teacher forbidding teacher_request tt
  = (tt, Exc (HTTPException 403 "Forbidden"))
  /\ run (delete_assignment forbidding "a1" teacher_request) tt
     = ({| world := tt; response_status_code := None;
           trace := [Called OnlyTeacher] |},
        Exc (HTTPException 403 "Forbidden"))
  /\ ~ In DeleteAssignment
        (calls_of (fst (run (delete_assignment forbidding "a1"
                                               teacher_request) tt)))
  /\ (In OnlyTeacher [OnlyTeacher]
      /\ exists w1, only_teacher answering teacher_request tt = (w1, Val tt)).
Proof.
  split; [reflexivity|].
  destruct (proj2 (@delete_assignment_checks_teacher_first unit unit
                     forbidding "a1" teacher_request tt)
              tt (HTTPException 403 "Forbidden") eq_refl) as [Hrun Hnot].
  split; [exact Hrun|]. split; [exact Hnot|].
  apply (proj1 (@delete_assignment_checks_teacher_first unit unit
                  answering "a1" teacher_request tt)
           [OnlyTeacher] []).
  reflexivity.
Defined.


Lemma http_exceptions_pass_through_witness :
  only_teacher forbidding teacher_request tt
  = (tt, Exc (HTTPException 403 "Forbidden"))
  /\ respond (run (create_assignment forbidding sample_create
                                     teacher_request) tt)
     = ErrorResponse 403 "Forbidden".
Proof.
  split; [reflexivity|].
  apply (proj1 (proj2 (@http_exceptions_pass_through unit unit forbidding
                         tt tt 403 "Forbidden"))
           sample_create teacher_request).
  reflexivity.
Defined.

Lemma database_errors_are_logged_witness :
  isinstance database_error SQLAlchemyError = true
  /\ logged_errors
       (fst (run (get_assignments
                    (failing database_error : Collaborators unit unit) "c1")
                 tt))
     = [database_error].
Proof.
  split; [reflexivity|].
  apply (proj1 (@database_errors_are_logged unit unit
                  (failing database_error) tt tt database_error eq_refl)).
  reflexivity.
Defined.

